(** * werkzeug.contrib.sessions: a shallow embedding

    Embedding of [src/werkzeug/contrib/sessions.py]: the modification
    tracking dict, the session object, the key format check, key
    generation, the base and the filesystem session store, and the
    session middleware. *)

From Stdlib Require Import Ascii String ZArith List.
From stdpp Require Import base gmap strings list fin_maps.

Import ListNotations.
Local Open Scope string_scope.

(* ------------------------------------------------------------------ *)
(** ** Python values, exceptions, dicts *)

(** The values a session stores (all of them picklable). *)
Inductive pyval :=
| VNone
| VBool (b : bool)
| VInt (z : Z)
| VStr (s : string).

(** A Python dict with string keys: a finite map, equal when the
    key/value pairs are equal (insertion order is irrelevant). *)
Abbreviation pydict := (gmap string pyval).

Inductive errno := ENOENT | EACCES | EISDIR.

Inductive exn :=
| KeyError
| TypeError
| IOError (e : errno)
| OSError (e : errno)
| UnpicklingError.

(** What a dict method returns when it does not raise. *)
Inductive pyret :=
| RNone
| RVal (v : pyval)
| RItem (k : string) (v : pyval).  (* the (key, value) tuple of popitem *)

(** The mutating dict methods that [ModificationTrackingDict] wraps. *)
Inductive dict_op :=
| OpSetItem (k : string) (v : pyval)            (* d[k] = v *)
| OpDelItem (k : string)                        (* del d[k] *)
| OpClear                                       (* d.clear() *)
| OpPop (k : string) (default : option pyval)   (* d.pop(k[, default]) *)
| OpPopItem                                     (* d.popitem() *)
| OpSetDefault (k : string) (default : pyval)   (* d.setdefault(k[, default]) *)
| OpUpdate (kvs : list (string * pyval)).       (* d.update(kvs) *)

(** The builtin [dict] methods: the result (a value or a raised
    exception) and the dict afterwards. *)
Definition dict_apply (op : dict_op) (d : pydict) : (pyret + exn) * pydict :=
  match op with
  | OpSetItem k v => (inl RNone, <[k := v]> d)
  | OpDelItem k =>
      match d !! k with
      | Some _ => (inl RNone, delete k d)
      | None => (inr KeyError, d)
      end
  | OpClear => (inl RNone, ∅)
  | OpPop k default =>
      match d !! k, default with
      | Some v, _ => (inl (RVal v), delete k d)
      | None, Some dv => (inl (RVal dv), d)
      | None, None => (inr KeyError, d)
      end
  | OpPopItem =>
      (* CPython removes some item; which one is unspecified *)
      match map_to_list d with
      | (k, v) :: _ => (inl (RItem k v), delete k d)
      | [] => (inr KeyError, d)
      end
  | OpSetDefault k dv =>
      match d !! k with
      | Some v => (inl (RVal v), d)
      | None => (inl (RVal dv), <[k := dv]> d)
      end
  | OpUpdate kvs =>
      (inl RNone, fold_left (fun acc kv => <[fst kv := snd kv]> acc) kvs d)
  end.

(* ------------------------------------------------------------------ *)
(** ** ModificationTrackingDict and Session *)

(** [class ModificationTrackingDict(dict)], [__slots__ = ('modified',)]. *)
Record ModificationTrackingDict := {
  items : pydict;
  modified : bool
}.

(** [ModificationTrackingDict.__init__]: [dict.__init__] then
    [self.modified = False]. *)
Definition mtd_init (d : pydict) : ModificationTrackingDict :=
  {| items := d; modified := false |}.

(** [call_with_modification(f)]: [try: return f(self, ...)]
    [finally: self.modified = True].  The flag is set whether [f]
    returned or raised. *)
Definition call_with_modification (op : dict_op) (m : ModificationTrackingDict)
  : (pyret + exn) * ModificationTrackingDict :=
  let '(r, d') := dict_apply op (items m) in
  (r, {| items := d'; modified := true |}).

(** [class Session(ModificationTrackingDict)], slots
    [('modified', 'sid', 'new')]. *)
Record Session := {
  s_dict : ModificationTrackingDict;
  sid : string;
  new : bool
}.

(** [Session.__init__(self, data, sid, new=False)]. *)
Definition Session_init (data : pydict) (sid0 : string) (new0 : bool) : Session :=
  {| s_dict := mtd_init data; sid := sid0; new := new0 |}.

(** A mutating method called on a session (inherited from the dict). *)
Definition session_call (op : dict_op) (s : Session) : (pyret + exn) * Session :=
  let '(r, m) := call_with_modification op (s_dict s) in
  (r, {| s_dict := m; sid := sid s; new := new s |}).

(** [Session.should_save]: [self.modified or self.new]. *)
Definition should_save (s : Session) : bool := modified (s_dict s) || new s.

(* ------------------------------------------------------------------ *)
(** ** [ModificationTrackingDict.copy] *)

(** The two classes, and the builtin type each one derives from. *)
Inductive klass := KModificationTrackingDict | KSession.
Inductive builtin_type := BObject | BDict.

Definition static_base (k : klass) : builtin_type :=
  match k with
  | KModificationTrackingDict => BDict
  | KSession => BDict
  end.

(** [object.__new__(cls)]: CPython's [tp_new_wrapper] refuses it with
    [TypeError("object.__new__(X) is not safe, use dict.__new__()")]
    unless the nearest builtin base of [cls] is [object] itself.  When it
    is allowed it yields an instance with no dict entries and no slot set. *)
Definition object_new_allowed (k : klass) : bool :=
  match static_base k with BObject => true | BDict => false end.

(** [ModificationTrackingDict.copy] on a [ModificationTrackingDict]:
    allocate with [object.__new__(self.__class__)], then copy each slot
    of [__slots__] (only [modified]); the dict entries are not copied. *)
Definition mtd_copy (m : ModificationTrackingDict)
  : ModificationTrackingDict + exn :=
  if object_new_allowed KModificationTrackingDict
  then inl {| items := ∅; modified := modified m |}
  else inr TypeError.

(** The same method on a [Session]: the slots are
    [modified], [sid] and [new]. *)
Definition session_copy (s : Session) : Session + exn :=
  if object_new_allowed KSession
  then inl {| s_dict := {| items := ∅; modified := modified (s_dict s) |};
              sid := sid s; new := new s |}
  else inr TypeError.

(* ------------------------------------------------------------------ *)
(** ** Session keys *)

(** The character class [[a-fA-F0-9]]. *)
Definition is_hex_char (c : ascii) : bool :=
  let n := nat_of_ascii c in
  (Nat.leb 48 n && Nat.leb n 57)      (* 0-9 *)
  || (Nat.leb 97 n && Nat.leb n 102)  (* a-f *)
  || (Nat.leb 65 n && Nat.leb n 70).  (* A-F *)

(** [[a-fA-F0-9]{n}]: consume exactly [n] hex characters, returning
    the rest of the input. *)
Fixpoint match_hex_n (n : nat) (s : string) : option string :=
  match n with
  | O => Some s
  | S n' =>
      match s with
      | String c rest => if is_hex_char c then match_hex_n n' rest else None
      | EmptyString => None
      end
  end.

(** Python's [$] without [re.MULTILINE]: matches at the end of the
    string, or just before a newline that ends the string. *)
Definition match_dollar (rest : string) : bool :=
  match rest with
  | EmptyString => true
  | String c EmptyString => Ascii.eqb c "010"%char
  | _ => false
  end.

(** [_sha1_re = re.compile(r'^[a-fA-F0-9]{40}$')] and
    [SessionStore.is_valid_key]: [_sha1_re.match(key) is not None].
    The [{40}] repetition is exact, so there is no backtracking. *)
Definition sha1_re_match (key : string) : bool :=
  match match_hex_n 40 key with
  | Some rest => match_dollar rest
  | None => false
  end.

Definition is_valid_key (key : string) : bool := sha1_re_match key.

(** A SHA-1 digest: 20 bytes. *)
Record digest := {
  digest_bytes : list Byte.byte;
  digest_len : length digest_bytes = 20%nat
}.

Definition hex_digit (n : nat) : ascii :=
  match String.get n "0123456789abcdef" with
  | Some c => c
  | None => "0"%char
  end.

(** [hexdigest()]: each byte as two lowercase hex digits. *)
Fixpoint hexdigest_bytes (bs : list Byte.byte) : string :=
  match bs with
  | [] => EmptyString
  | b :: rest =>
      let n := Byte.to_nat b in
      String (hex_digit (n / 16)) (String (hex_digit (n mod 16)) (hexdigest_bytes rest))
  end.

Definition hexdigest (d : digest) : string := hexdigest_bytes (digest_bytes d).

(** The two environment readings [generate_key] makes, as their [%s]
    renderings: [time()] and [_urandom()] ([os.urandom(30)], or
    [random()] where [os.urandom] is missing). *)
Record key_env := {
  env_time : string;
  env_urandom : string
}.

(** [str(salt)] for [salt=None] or a string. *)
Definition salt_str (salt : option string) : string :=
  match salt with None => "None" | Some s => s end.

Section Keys.
(** The SHA-1 hash function ([hashlib.sha1]). *)
Variable sha1 : string -> digest.

(** [generate_key(salt=None)]:
    [sha1('%s%s%s' % (salt, time(), _urandom())).hexdigest()]. *)
Definition generate_key (salt : option string) (env : key_env) : string :=
  hexdigest (sha1 (salt_str salt ++ env_time env ++ env_urandom env)).

(** [SessionStore.new]: [self.session_class({}, self.generate_key(), True)]
    (with the default [session_class], [Session]). *)
Definition store_new (env : key_env) : Session :=
  Session_init ∅ (generate_key None env) true.
End Keys.

Example is_valid_key_ex1 :
  is_valid_key "0123456789abcdefABCDEF0123456789abcdef01" = true.
Proof. reflexivity. Qed.

Example is_valid_key_ex2 :
  is_valid_key "0123456789abcdefABCDEF0123456789abcdef0" = false.
Proof. reflexivity. Qed.

(* ------------------------------------------------------------------ *)
(** ** Paths *)

(** [template % sid] for a single string argument.  The directives
    [%s] and [%%] are modelled; any other directive is a formatting
    error here.  The boolean says whether the argument was consumed. *)
Fixpoint format_aux (t arg : string) : option (string * bool) :=
  match t with
  | EmptyString => Some (EmptyString, false)
  | String "%" (String "%" rest) =>
      match format_aux rest arg with
      | Some (s, used) => Some (String "%" s, used)
      | None => None
      end
  | String "%" (String "s" rest) =>
      match format_aux rest arg with
      (* a second [%s]: "not enough arguments for format string" *)
      | Some (s, used) => if used then None else Some (arg ++ s, true)
      | None => None
      end
  | String "%" _ => None
  | String c rest =>
      match format_aux rest arg with
      | Some (s, used) => Some (String c s, used)
      | None => None
      end
  end.

(** [None] is the [TypeError]/[ValueError] that [%] raises; an argument
    left unconverted is "not all arguments converted". *)
Definition format_str (t arg : string) : option string :=
  match format_aux t arg with
  | Some (s, true) => Some s
  | _ => None
  end.

Definition starts_with_slash (s : string) : bool :=
  match s with String "/" _ => true | _ => false end.

Definition ends_with_slash (s : string) : bool :=
  match String.get (String.length s - 1) s with
  | Some "/"%char => true
  | _ => false
  end.

(** [posixpath.join(a, b)]. *)
Definition path_join (a b : string) : string :=
  if starts_with_slash b then b
  else if String.eqb a "" || ends_with_slash a then a ++ b
  else a ++ "/" ++ b.

(* ------------------------------------------------------------------ *)
(** ** The filesystem session store *)

Record FilesystemSessionStore := {
  fs_path : string;               (* self.path *)
  filename_template : string      (* self.filename_template *)
}.

(** [FilesystemSessionStore(path, ...)] with the default template. *)
Definition default_store (p : string) : FilesystemSessionStore :=
  {| fs_path := p; filename_template := "werkzeug_%s.sess" |}.

(** [get_session_filename(sid)]:
    [path.join(self.path, self.filename_template % sid)]. *)
Definition get_session_filename (st : FilesystemSessionStore) (sid0 : string)
  : option string :=
  match format_str (filename_template st) sid0 with
  | Some name => Some (path_join (fs_path st) name)
  | None => None
  end.

Section Filesystem.
(** File contents, and the pickle codec ([cPickle.dump] of a dict with
    [HIGHEST_PROTOCOL], and [cPickle.load], which may raise). *)
Context {Blob : Type}.
Variable dump : pydict -> Blob.
Variable load : Blob -> option pydict.
Variable sha1 : string -> digest.

(** The files of the session directory; the paths the OS refuses to
    open for writing or to unlink (permission denied); the existing files
    that cannot be opened for reading (no read permission for the
    process); and whether the process umask withholds read permission
    from the files it creates. *)
Record filesystem := {
  files : gmap string Blob;
  denied : gset string;
  unreadable : gset string;
  umask_denies_read : bool
}.

(** The world a store method acts on: the filesystem and the
    in-memory session object passed to the method. *)
Record world := {
  w_fs : filesystem;
  w_session : Session
}.

Definition set_fs (w : world) (fs : filesystem) : world :=
  {| w_fs := fs; w_session := w_session w |}.

(** [os.unlink(fn)]. *)
Definition unlink (fn : string) (fs : filesystem) : filesystem + exn :=
  match files fs !! fn with
  | None => inr (OSError ENOENT)
  | Some _ =>
      if decide (fn ∈ denied fs) then inr (OSError EACCES)
      else inl {| files := delete fn (files fs); denied := denied fs;
                  unreadable := unreadable fs ∖ {[fn]};
                  umask_denies_read := umask_denies_read fs |}
  end.

(** The unreadable files after [file(fn, 'wb')] succeeded: [fn] joins
    them when the call created it under a umask without owner read. *)
Definition created_unreadable (fn : string) (fs : filesystem) : gset string :=
  match files fs !! fn with
  | None => if umask_denies_read fs then {[fn]} ∪ unreadable fs else unreadable fs
  | Some _ => unreadable fs
  end.

(** [FilesystemSessionStore.save]:
    [f = file(fn, 'wb')]; [dump(dict(session), f, HIGHEST_PROTOCOL)];
    [f.close()].  The result is the exception raised, if any, and the
    world afterwards.  Opening an existing file for writing truncates it
    and keeps its permissions; a file the call creates gets its
    permissions from the umask. *)
Definition fs_save (st : FilesystemSessionStore) (w : world) : option exn * world :=
  match get_session_filename st (sid (w_session w)) with
  | None => (Some TypeError, w)
  | Some fn =>
      if decide (fn ∈ denied (w_fs w)) then (Some (IOError EACCES), w)
      else
        (None, set_fs w {| files := <[fn := dump (items (s_dict (w_session w)))]>
                                      (files (w_fs w));
                           denied := denied (w_fs w);
                           unreadable := created_unreadable fn (w_fs w);
                           umask_denies_read := umask_denies_read (w_fs w) |})
  end.

(** [FilesystemSessionStore.delete]: [unlink(fn)] inside
    [try: ... except OSError: pass]. *)
Definition fs_delete (st : FilesystemSessionStore) (w : world) : option exn * world :=
  match get_session_filename st (sid (w_session w)) with
  | None => (Some TypeError, w)
  | Some fn =>
      match unlink fn (w_fs w) with
      | inl fs' => (None, set_fs w fs')
      | inr (OSError _) => (None, w)
      | inr e => (Some e, w)
      end
  end.

(** [SessionStore.save_if_modified], with [self.save] the filesystem
    store's [save]. *)
Definition fs_save_if_modified (st : FilesystemSessionStore) (w : world)
  : option exn * world :=
  if should_save (w_session w) then fs_save st w else (None, w).

(** [FilesystemSessionStore.get]: compute the file name, then
    [if not self.is_valid_key(sid) or not path.exists(fn): return self.new()],
    else [f = file(fn, 'rb')] (an [IOError] when the file cannot be opened
    for reading), [data = load(f)], and return [Session(data, sid, False)].
    [get] reads the filesystem and does not change it. *)
Definition fs_get (st : FilesystemSessionStore) (sid0 : string) (fs : filesystem)
    (env : key_env) : Session + exn :=
  match get_session_filename st sid0 with
  | None => inr TypeError
  | Some fn =>
      if negb (is_valid_key sid0) then inl (store_new sha1 env)
      else
        match files fs !! fn with
        | None => inl (store_new sha1 env)
        | Some blob =>
            if decide (fn ∈ unreadable fs) then inr (IOError EACCES)
            else
              match load blob with
              | Some data => inl (Session_init data sid0 false)
              | None => inr UnpicklingError
              end
        end
  end.
End Filesystem.

(** [SessionStore.get] of the base class:
    [return self.session_class({}, sid, True)]. *)
Definition base_get (sid0 : string) : Session := Session_init ∅ sid0 true.

Example default_filename :
  get_session_filename (default_store "/tmp") "abc" = Some "/tmp/werkzeug_abc.sess".
Proof. reflexivity. Qed.

Example filename_absolute :
  get_session_filename {| fs_path := "/tmp"; filename_template := "%s" |} "/etc/x"
  = Some "/etc/x".
Proof. reflexivity. Qed.

(* ------------------------------------------------------------------ *)
(** ** The session middleware *)

(** The cookie parameters of [SessionMiddleware.__init__]. *)
Record middleware_config := {
  cookie_name : string;
  cookie_age : option Z;
  cookie_expires : option Z;
  cookie_path : string;
  cookie_domain : option string;
  cookie_secure : option bool;
  cookie_httponly : bool;
  environ_key : string
}.

Definition header := (string * string)%type.

(** The calls the middleware makes on its store, with the session
    object as it is at the time of the call. *)
Inductive store_call :=
| CallSave (s : Session)
| CallSaveIfModified (s : Session).

(** What the wrapped application does while it handles the request and
    while its body is iterated: mutate the session found in the environ,
    set its [modified] flag by hand, assign its [sid] or [new] attribute,
    call [start_response] (the third argument tells whether [exc_info] is
    passed), or yield a chunk. *)
Inductive app_action :=
| AMutate (op : dict_op)
| ASetModified (b : bool)
| ASetSid (v : string)
| ASetNew (b : bool)
| AStartResponse (status : string) (headers : list header) (exc_info : bool)
| AYield (chunk : string).

(** The middleware's view of one request: the session, the store calls
    made so far, the calls forwarded to the server's [start_response]
    (status, headers, exc_info), and the body produced. *)
Record mw_state := {
  m_session : Session;
  m_store_log : list store_call;
  m_started : list (string * list header * bool);
  m_body : list string
}.

Section Middleware.
Variable cfg : middleware_config.
(** [dump_cookie(self.cookie_name, session.sid, self.cookie_age, ...)]:
    the cookie serialisation of [werkzeug.utils], given the
    middleware's cookie parameters and the session id. *)
Variable dump_cookie : middleware_config -> string -> string.

Definition mw_init (s : Session) : mw_state :=
  {| m_session := s; m_store_log := []; m_started := []; m_body := [] |}.

(** [injecting_start_response(status, headers, exc_info)]:
    [if session.should_save: self.store.save(session);
     headers.append(('Set-Cookie', dump_cookie(...)))], then
    [return start_response(status, headers, exc_info)]. *)
Definition injecting_start_response (status : string) (headers : list header)
    (exc_info : bool) (st : mw_state) : mw_state :=
  let s := m_session st in
  if should_save s then
    {| m_session := s;
       m_store_log := m_store_log st ++ [CallSave s];
       m_started := m_started st ++
         [(status, (headers ++ [("Set-Cookie", dump_cookie cfg (sid s))])%list, exc_info)];
       m_body := m_body st |}
  else
    {| m_session := s;
       m_store_log := m_store_log st;
       m_started := m_started st ++ [(status, headers, exc_info)];
       m_body := m_body st |}.

Definition set_session (st : mw_state) (s : Session) : mw_state :=
  {| m_session := s; m_store_log := m_store_log st;
     m_started := m_started st; m_body := m_body st |}.

Definition app_step (st : mw_state) (a : app_action) : mw_state :=
  match a with
  | AMutate op => set_session st (snd (session_call op (m_session st)))
  | ASetModified b =>
      let s := m_session st in
      set_session st {| s_dict := {| items := items (s_dict s); modified := b |};
                        sid := sid s; new := new s |}
  | ASetSid v =>
      let s := m_session st in
      set_session st {| s_dict := s_dict s; sid := v; new := new s |}
  | ASetNew b =>
      let s := m_session st in
      set_session st {| s_dict := s_dict s; sid := sid s; new := b |}
  | AStartResponse status headers exc => injecting_start_response status headers exc st
  | AYield c =>
      {| m_session := m_session st; m_store_log := m_store_log st;
         m_started := m_started st; m_body := m_body st ++ [c] |}
  end.

Definition run_app (acts : list app_action) (st : mw_state) : mw_state :=
  fold_left app_step acts st.

(** The [ClosingIterator] callback, run when the server closes the
    response: [lambda: self.store.save_if_modified(session)]. *)
Definition close_response (st : mw_state) : mw_state :=
  {| m_session := m_session st;
     m_store_log := m_store_log st ++ [CallSaveIfModified (m_session st)];
     m_started := m_started st; m_body := m_body st |}.

(** One request, from the session the middleware put in the environ
    to the server's [close()] on the returned iterator. *)
Definition middleware_run (s0 : Session) (acts : list app_action) : mw_state :=
  close_response (run_app acts (mw_init s0)).

(** [SessionMiddleware.__call__]: the session is [store.new()] when the
    request has no cookie named [cookie_name], else [store.get(sid)]. *)
Definition middleware_call (cookie_sid : option string) (store_new_session : Session)
    (store_get : string -> Session) (acts : list app_action) : mw_state :=
  let session := match cookie_sid with
                 | None => store_new_session
                 | Some s => store_get s
                 end in
  middleware_run session acts.
End Middleware.

(* ================================================================== *)
(** * Properties *)

(** ** Helper lemmas *)

Lemma hex_digit_is_hex (k : nat) : k < 16 -> is_hex_char (hex_digit k) = true.
Proof.
  intros Hk.
  do 16 (destruct k as [|k]; [reflexivity|]).
  lia.
Qed.

Lemma byte_digits_hex (b : Byte.byte) :
  is_hex_char (hex_digit (Byte.to_nat b / 16)) = true /\
  is_hex_char (hex_digit (Byte.to_nat b mod 16)) = true.
Proof.
  pose proof (Byte.to_nat_bounded b) as Hb.
  split; apply hex_digit_is_hex.
  - apply Nat.Div0.div_lt_upper_bound. lia.
  - apply Nat.mod_upper_bound. lia.
Qed.

Lemma match_hex_hexdigest_bytes (bs : list Byte.byte) (rest : string) :
  match_hex_n (2 * length bs) (hexdigest_bytes bs ++ rest) = Some rest.
Proof.
  induction bs as [|b bs IH]; [reflexivity|].
  destruct (byte_digits_hex b) as [H1 H2].
  replace (2 * length (b :: bs)) with (S (S (2 * length bs))) by (simpl; lia).
  change (hexdigest_bytes (b :: bs) ++ rest) with
    (String (hex_digit (Byte.to_nat b / 16))
       (String (hex_digit (Byte.to_nat b mod 16)) (hexdigest_bytes bs ++ rest))).
  cbn [match_hex_n]. rewrite H1, H2. exact IH.
Qed.

Lemma string_append_empty_r (s : string) : (s ++ "")%string = s.
Proof. induction s as [|c s IH]; [reflexivity | exact (f_equal (String c) IH)]. Qed.

Lemma hexdigest_bytes_length (bs : list Byte.byte) :
  String.length (hexdigest_bytes bs) = 2 * length bs.
Proof. induction bs as [|b bs IH]; simpl; [reflexivity|]. rewrite IH. lia. Qed.

(** Every SHA-1 hexdigest passes [is_valid_key] and has 40 characters. *)
Lemma hexdigest_valid (d : digest) :
  is_valid_key (hexdigest d) = true /\ String.length (hexdigest d) = 40.
Proof.
  unfold hexdigest. pose proof (digest_len d) as Hl.
  split.
  - unfold is_valid_key, sha1_re_match.
    pose proof (match_hex_hexdigest_bytes (digest_bytes d) "") as H.
    rewrite Hl, string_append_empty_r in H. change (2 * 20) with 40 in H.
    rewrite H. reflexivity.
  - rewrite hexdigest_bytes_length, Hl. reflexivity.
Qed.

Lemma new_session_key_valid (sha1 : string -> digest) (env : key_env) :
  is_valid_key (sid (store_new sha1 env)) = true /\
  String.length (sid (store_new sha1 env)) = 40.
Proof. apply hexdigest_valid. Qed.

(** ** C1: [copy] *)

(** C1 (code_bug).  The docstring of [ModificationTrackingDict.copy]
    says "Create a flat copy of the dict", but the method never copies
    the entries, and its allocation [object.__new__(self.__class__)] is
    refused by CPython for these dict subclasses: [copy] raises
    [TypeError] on every [ModificationTrackingDict] and every [Session],
    for instance on one holding [{'user': 'alice'}]. *)
Theorem copy_raises_type_error :
  mtd_copy {| items := <["user" := VStr "alice"]> ∅; modified := true |} = inr TypeError /\
  (forall m, mtd_copy m = inr TypeError) /\
  (forall s, session_copy s = inr TypeError).
Proof. repeat split; reflexivity. Qed.

(** ** C4: every wrapped mutator sets [modified] *)

(** C4.  Each of [__setitem__], [__delitem__], [clear], [pop],
    [popitem], [setdefault] and [update] of a [ModificationTrackingDict]
    (or of a [Session]) returns or raises as the plain dict method does,
    and afterwards [modified] is [True], whether or not the call changed
    anything and whether or not it raised. *)
Theorem mutators_set_modified :
  (forall (op : dict_op) (m : ModificationTrackingDict),
     call_with_modification op m =
       (fst (dict_apply op (items m)),
        {| items := snd (dict_apply op (items m)); modified := true |}) /\
     modified (snd (call_with_modification op m)) = true) /\
  (forall (op : dict_op) (s : Session),
     modified (s_dict (snd (session_call op s))) = true /\
     sid (snd (session_call op s)) = sid s /\
     new (snd (session_call op s)) = new s).
Proof.
  split.
  - intros op m. unfold call_with_modification.
    destruct (dict_apply op (items m)) as [r d']. split; reflexivity.
  - intros op s. unfold session_call, call_with_modification.
    destruct (dict_apply op (items (s_dict s))) as [r d']. repeat split.
Qed.

Example pop_missing_raises_and_flags :
  call_with_modification (OpPop "k" None) (mtd_init ∅)
  = (inr KeyError, {| items := ∅; modified := true |}).
Proof. reflexivity. Qed.

(** ** C5: [is_valid_key] *)

(** C5 (code_bug).  [_sha1_re] ends in [$], which in Python also
    matches just before a newline ending the string: the 41-character
    key made of 40 hex digits and a trailing newline is accepted. *)
Theorem is_valid_key_accepts_trailing_newline :
  let key := "0000000000000000000000000000000000000000" ++ String "010"%char "" in
  String.length key = 41 /\ is_valid_key key = true.
Proof. split; reflexivity. Qed.

(** ** C8: [new] *)

(** C8.  [SessionStore.new()] returns a session with empty data,
    [new = True], [should_save = True], and an id that passes
    [is_valid_key] and has 40 characters. *)
Theorem new_session_props (sha1 : string -> digest) (env : key_env) :
  let s := store_new sha1 env in
  items (s_dict s) = ∅ /\ new s = true /\ should_save s = true /\
  is_valid_key (sid s) = true /\ String.length (sid s) = 40.
Proof.
  simpl. destruct (new_session_key_valid sha1 env) as [H1 H2].
  repeat split; assumption.
Qed.

(** ** Concrete inputs for the examples below *)

Definition zero_digest : digest :=
  {| digest_bytes := repeat Byte.x00 20; digest_len := eq_refl |}.

Definition const_sha1 (_ : string) : digest := zero_digest.

Definition sample_env : key_env :=
  {| env_time := "1262304000.0"; env_urandom := "0123456789" |}.

Definition tmp_store : FilesystemSessionStore := default_store "/tmp".

Definition alice_data : pydict := <["user" := VStr "alice"]> ∅.

(** A valid session key. *)
Definition sample_key : string := "3f786850e387550fdab836ed7e6dc881de23001b".

(** ** C2: [delete] *)



Definition sample_fn : string := "/tmp/werkzeug_" ++ sample_key ++ ".sess".



(** ** C3: [get] of an invalid or unknown id *)

(** C3 (counterexample).  The base class [SessionStore.get] neither
    validates nor looks up: for the id ["not-a-valid-id"] it returns a
    session bound to that very id, which no call of [new()] can return
    (every key [new()] generates passes [is_valid_key]). *)
Lemma base_get_is_not_new :
  sid (base_get "not-a-valid-id") = "not-a-valid-id" /\
  is_valid_key "not-a-valid-id" = false /\
  (forall (sha1 : string -> digest) (env : key_env),
     base_get "not-a-valid-id" <> store_new sha1 env).
Proof.
  split; [reflexivity|]. split; [reflexivity|].
  intros sha1 env Heq.
  destruct (new_session_key_valid sha1 env) as [Hv _].
  rewrite <- Heq in Hv. discriminate Hv.
Qed.

(** C3 (amended).  For a [FilesystemSessionStore] whose template
    formats the id, [get(sid)] with an id failing [is_valid_key], or
    with no file at its path, returns exactly what [new()] returns (a
    fresh key, empty data, [new = True]) and raises nothing; the base
    [SessionStore.get] returns [Session({}, sid, True)] without any
    check. *)
Theorem get_invalid_or_missing_is_new {Blob : Type}
    (load : Blob -> option pydict) (sha1 : string -> digest)
    (st : FilesystemSessionStore) (sid0 : string) (fs : @filesystem Blob)
    (env : key_env) (fn : string)
    (Hfn : get_session_filename st sid0 = Some fn)
    (Hmiss : is_valid_key sid0 = false \/ files fs !! fn = None) :
  fs_get load sha1 st sid0 fs env = inl (store_new sha1 env) /\
  base_get sid0 = Session_init ∅ sid0 true.
Proof.
  split; [|reflexivity].
  unfold fs_get. rewrite Hfn.
  destruct (is_valid_key sid0) eqn:Hv; simpl; [|reflexivity].
  destruct Hmiss as [Hf | Hnone]; [discriminate Hf|].
  rewrite Hnone. reflexivity.
Qed.

Definition empty_fs {Blob : Type} : @filesystem Blob :=
  {| files := ∅; denied := ∅; unreadable := ∅; umask_denies_read := false |}.

Lemma get_invalid_or_missing_is_new_witness :
  get_session_filename tmp_store "not-a-valid-id" = Some "/tmp/werkzeug_not-a-valid-id.sess" /\
  (is_valid_key "not-a-valid-id" = false \/
   files (@empty_fs pydict) !! "/tmp/werkzeug_not-a-valid-id.sess" = None) /\
  (fs_get Some const_sha1 tmp_store "not-a-valid-id" empty_fs sample_env
     = inl (store_new const_sha1 sample_env) /\
   base_get "not-a-valid-id" = Session_init ∅ "not-a-valid-id" true).
Proof.
  split; [reflexivity|]. split; [left; reflexivity|].
  apply (get_invalid_or_missing_is_new Some const_sha1 tmp_store "not-a-valid-id"
           empty_fs sample_env "/tmp/werkzeug_not-a-valid-id.sess").
  - reflexivity.
  - left. reflexivity.
Defined.

(** ** C6: [save] then [get] *)

Definition invalid_sid_world : @world pydict :=
  {| w_fs := empty_fs; w_session := Session_init alice_data "abc" true |}.

(** C6 (counterexample).  A session whose id ["abc"] fails
    [is_valid_key] is saved without error, but [get("abc")] then
    returns a brand-new session with another id, not the saved data. *)
Lemma save_then_get_invalid_sid :
  fst (fs_save (fun d => d) tmp_store invalid_sid_world) = None /\
  fs_get Some const_sha1 tmp_store "abc"
    (w_fs (snd (fs_save (fun d => d) tmp_store invalid_sid_world))) sample_env
  = inl (store_new const_sha1 sample_env) /\
  new (store_new const_sha1 sample_env) = true /\
  sid (store_new const_sha1 sample_env) <> "abc" /\
  items (s_dict (store_new const_sha1 sample_env)) <> alice_data.
Proof.
  split; [reflexivity|]. split; [reflexivity|]. split; [reflexivity|].
  split; [vm_compute; discriminate|].
  intros H. assert (Hl : items (s_dict (store_new const_sha1 sample_env)) !! "user"
                         = alice_data !! "user") by (rewrite H; reflexivity).
  vm_compute in Hl. discriminate Hl.
Qed.

(** C6 (amended).  If the codec round-trips ([load(dump(d)) = d]), the
    session id passes [is_valid_key], a [save] raised nothing, and the
    saved file can then be opened for reading (it was not an existing
    file without read permission, and the umask did not withhold read
    permission from it when [save] created it), then [get(session.sid)]
    returns [Session(dict(session), session.sid, False)]: the saved data,
    the same id, [new = False] (and [modified = False]). *)
Theorem save_get_roundtrip {Blob : Type}
    (dump : pydict -> Blob) (load : Blob -> option pydict) (sha1 : string -> digest)
    (st : FilesystemSessionStore) (w : @world Blob) (env : key_env) (fn : string)
    (Hcodec : forall d, load (dump d) = Some d)
    (Hvalid : is_valid_key (sid (w_session w)) = true)
    (Hfn : get_session_filename st (sid (w_session w)) = Some fn)
    (Hsaved : fst (fs_save dump st w) = None)
    (Hread : fn ∉ unreadable (w_fs (snd (fs_save dump st w)))) :
  fs_get load sha1 st (sid (w_session w)) (w_fs (snd (fs_save dump st w))) env
  = inl (Session_init (items (s_dict (w_session w))) (sid (w_session w)) false).
Proof.
  unfold fs_save in *. rewrite Hfn in Hsaved, Hread |- *.
  destruct (decide (fn ∈ denied (w_fs w))); [discriminate Hsaved|].
  unfold fs_get. rewrite Hfn, Hvalid. simpl in Hread |- *.
  rewrite lookup_insert_eq.
  destruct (decide _) as [Hin|_]; [contradiction|].
  rewrite Hcodec. reflexivity.
Qed.

(** Under a umask that withholds owner read permission, [save] creates
    the session file unreadable, and the following [get] raises
    [IOError] from [file(fn, 'rb')]. *)
Definition umask_world : @world pydict :=
  {| w_fs := {| files := ∅; denied := ∅; unreadable := ∅; umask_denies_read := true |};
     w_session := Session_init alice_data sample_key false |}.

Example save_then_get_unreadable :
  fst (fs_save (fun d => d) tmp_store umask_world) = None /\
  fs_get Some const_sha1 tmp_store sample_key
    (w_fs (snd (fs_save (fun d => d) tmp_store umask_world))) sample_env
  = inr (IOError EACCES).
Proof. split; reflexivity. Qed.

Definition valid_sid_world : @world pydict :=
  {| w_fs := empty_fs; w_session := Session_init alice_data sample_key false |}.

Lemma save_get_roundtrip_witness :
  (forall d : pydict, Some d = Some d) /\
  is_valid_key (sid (w_session valid_sid_world)) = true /\
  get_session_filename tmp_store (sid (w_session valid_sid_world)) = Some sample_fn /\
  fst (fs_save (fun d => d) tmp_store valid_sid_world) = None /\
  (sample_fn ∉ unreadable (w_fs (snd (fs_save (fun d => d) tmp_store valid_sid_world)))) /\
  fs_get Some const_sha1 tmp_store sample_key
    (w_fs (snd (fs_save (fun d => d) tmp_store valid_sid_world))) sample_env
  = inl (Session_init alice_data sample_key false).
Proof.
  split; [reflexivity|]. split; [reflexivity|]. split; [reflexivity|].
  split; [reflexivity|]. split; [vm_compute; set_solver|].
  apply (save_get_roundtrip (fun d => d) Some const_sha1 tmp_store valid_sid_world
           sample_env sample_fn).
  - reflexivity.
  - reflexivity.
  - reflexivity.
  - reflexivity.
  - vm_compute. set_solver.
Defined.

(** ** C9: store methods leave the session object alone *)

Lemma fs_save_session {Blob : Type} (dump : pydict -> Blob)
    (st : FilesystemSessionStore) (w : @world Blob) :
  w_session (snd (fs_save dump st w)) = w_session w.
Proof.
  unfold fs_save.
  destruct (get_session_filename st (sid (w_session w))); [|reflexivity].
  destruct (decide _); reflexivity.
Qed.

(** C9.  [save], [save_if_modified] and [delete] of the filesystem
    store, whether or not they raise, leave the session object they are
    given unchanged (data, [sid], [new], [modified]); in particular
    [save] does not clear [modified], so [should_save] keeps its value. *)
Theorem store_ops_keep_session {Blob : Type} (dump : pydict -> Blob)
    (st : FilesystemSessionStore) (w : @world Blob) :
  w_session (snd (fs_save dump st w)) = w_session w /\
  w_session (snd (fs_save_if_modified dump st w)) = w_session w /\
  w_session (snd (fs_delete st w)) = w_session w /\
  should_save (w_session (snd (fs_save dump st w))) = should_save (w_session w).
Proof.
  split; [apply fs_save_session|].
  split; [unfold fs_save_if_modified; destruct (should_save _);
          [apply fs_save_session | reflexivity]|].
  split; [|rewrite fs_save_session; reflexivity].
  unfold fs_delete.
  destruct (get_session_filename st (sid (w_session w))) as [fn|]; [|reflexivity].
  destruct (unlink fn (w_fs w)) as [fs'|[]]; reflexivity.
Qed.

(** ** C10: [save] does not validate the id *)

(** A session id with path separators, which fails [is_valid_key]. *)
Definition traversal_sid : string := "../../../etc/cron.d/x".

Definition traversal_world : @world pydict :=
  {| w_fs := empty_fs; w_session := Session_init alice_data traversal_sid true |}.

(** C10.  [save] writes [dict(session)] to
    [path.join(path, filename_template % sid)] whatever the id, with no
    [is_valid_key] check; only [get] checks the key, and for an id
    failing it [get] returns a new session instead of the saved file. *)
Theorem save_writes_unvalidated_path {Blob : Type}
    (dump : pydict -> Blob) (load : Blob -> option pydict) (sha1 : string -> digest)
    (st : FilesystemSessionStore) (w : @world Blob) (fn : string) (env : key_env)
    (Hfn : get_session_filename st (sid (w_session w)) = Some fn)
    (Hperm : fn ∉ denied (w_fs w)) :
  fs_save dump st w =
    (None, set_fs w {| files := <[fn := dump (items (s_dict (w_session w)))]>
                                  (files (w_fs w));
                       denied := denied (w_fs w);
                       unreadable := created_unreadable fn (w_fs w);
                       umask_denies_read := umask_denies_read (w_fs w) |}) /\
  (is_valid_key (sid (w_session w)) = false ->
   fs_get load sha1 st (sid (w_session w)) (w_fs (snd (fs_save dump st w))) env
   = inl (store_new sha1 env)).
Proof.
  assert (Hsave : fs_save dump st w =
    (None, set_fs w {| files := <[fn := dump (items (s_dict (w_session w)))]>
                                  (files (w_fs w));
                       denied := denied (w_fs w);
                       unreadable := created_unreadable fn (w_fs w);
                       umask_denies_read := umask_denies_read (w_fs w) |})).
  { unfold fs_save. rewrite Hfn. destruct (decide _); [contradiction|reflexivity]. }
  split; [exact Hsave|].
  intros Hinv. unfold fs_get. rewrite Hfn, Hinv. reflexivity.
Qed.

Lemma save_writes_unvalidated_path_witness :
  get_session_filename tmp_store traversal_sid
    = Some "/tmp/werkzeug_../../../etc/cron.d/x.sess" /\
  is_valid_key traversal_sid = false /\
  fs_save (fun d => d) tmp_store traversal_world =
    (None, set_fs traversal_world
             {| files := {["/tmp/werkzeug_../../../etc/cron.d/x.sess" := alice_data]};
                denied := ∅; unreadable := ∅; umask_denies_read := false |}).
Proof.
  split; [reflexivity|]. split; [reflexivity|].
  destruct (save_writes_unvalidated_path (fun d => d) Some const_sha1 tmp_store
              traversal_world "/tmp/werkzeug_../../../etc/cron.d/x.sess" sample_env)
    as [H _].
  - reflexivity.
  - set_solver.
  - exact H.
Defined.

(** ** C7: the middleware's cookie and store calls *)

(** The defaults of [SessionMiddleware.__init__]. *)
Definition default_config : middleware_config :=
  {| cookie_name := "session_id"; cookie_age := None; cookie_expires := None;
     cookie_path := "/"; cookie_domain := None; cookie_secure := None;
     cookie_httponly := false; environ_key := "werkzeug.session" |}.

(** A stand-in for [dump_cookie]: [name=value]. *)
Definition plain_cookie (c : middleware_config) (v : string) : string :=
  cookie_name c ++ "=" ++ v.

Lemma run_app_app (cfg : middleware_config) dump_cookie
    (a b : list app_action) (st : mw_state) :
  run_app cfg dump_cookie (a ++ b) st = run_app cfg dump_cookie b (run_app cfg dump_cookie a st).
Proof. apply fold_left_app. Qed.

Definition session_cookie_header (cfg : middleware_config) dump_cookie (s : Session)
  : list header :=
  if should_save s then [("Set-Cookie", dump_cookie cfg (sid s))] else [].

(** C7 (counterexample).  A WSGI application may call [start_response]
    a second time with [exc_info] (its error path).  For a new session,
    each call appends a [Set-Cookie] header and saves: two headers are
    appended in one request and the store is called three times. *)
Lemma start_response_twice :
  let s0 := Session_init ∅ sample_key true in
  let fin := middleware_run default_config plain_cookie s0
               [AStartResponse "200 OK" [] false;
                AStartResponse "500 INTERNAL SERVER ERROR" [] true] in
  m_started fin =
    [("200 OK", [("Set-Cookie", "session_id=" ++ sample_key)], false);
     ("500 INTERNAL SERVER ERROR", [("Set-Cookie", "session_id=" ++ sample_key)], true)] /\
  m_store_log fin = [CallSave s0; CallSave s0; CallSaveIfModified s0].
Proof. split; reflexivity. Qed.

(** The [start_response] calls of an action list, each with its
    position in the list. *)
Definition start_point (n : nat) (a : app_action)
  : list (nat * (string * list header * bool)) :=
  match a with
  | AStartResponse status hs exc => [(n, (status, hs, exc))]
  | _ => []
  end.

Fixpoint start_points_from (n : nat) (acts : list app_action)
  : list (nat * (string * list header * bool)) :=
  match acts with
  | [] => []
  | a :: rest => (start_point n a ++ start_points_from (S n) rest)%list
  end.

Definition start_points (acts : list app_action) := start_points_from 0 acts.

(** The session object as it is when the application performs its
    [j]-th action. *)
Definition session_at (cfg : middleware_config) dump_cookie (s0 : Session)
    (acts : list app_action) (j : nat) : Session :=
  m_session (run_app cfg dump_cookie (take j acts) (mw_init s0)).

(** The call the server receives for the [start_response] call at
    position [j], and the store calls made there. *)
Definition forwarded_call (cfg : middleware_config) dump_cookie (s0 : Session)
    (acts : list app_action) (p : nat * (string * list header * bool))
  : string * list header * bool :=
  let '(j, (status, hs, exc)) := p in
  (status, (hs ++ session_cookie_header cfg dump_cookie (session_at cfg dump_cookie s0 acts j))%list,
   exc).

Definition saves_at (cfg : middleware_config) dump_cookie (s0 : Session)
    (acts : list app_action) (p : nat * (string * list header * bool)) : list store_call :=
  let s := session_at cfg dump_cookie s0 acts (fst p) in
  if should_save s then [CallSave s] else [].

Lemma start_points_from_snoc (n : nat) (acts : list app_action) (a : app_action) :
  start_points_from n (acts ++ [a]) =
  (start_points_from n acts ++ start_point (n + length acts) a)%list.
Proof.
  revert n. induction acts as [|b acts IH]; intros n; cbn [app start_points_from length].
  - rewrite Nat.add_0_r, !app_nil_r. reflexivity.
  - rewrite IH, app_assoc.
    replace (S n + length acts) with (n + S (length acts)) by lia. reflexivity.
Qed.

Lemma start_points_from_bound (n : nat) (acts : list app_action)
    (p : nat * (string * list header * bool)) :
  In p (start_points_from n acts) -> fst p < n + length acts.
Proof.
  revert n. induction acts as [|b acts IH]; intros n H; cbn in H; [contradiction|].
  apply in_app_or in H as [H|H].
  - destruct b; cbn in H; try contradiction.
    destruct H as [<-|[]]. cbn. lia.
  - apply IH in H. cbn. lia.
Qed.

Lemma session_at_snoc (cfg : middleware_config) dump_cookie (s0 : Session)
    (acts : list app_action) (a : app_action) (j : nat) :
  j <= length acts ->
  session_at cfg dump_cookie s0 (acts ++ [a]) j = session_at cfg dump_cookie s0 acts j.
Proof. intros Hj. unfold session_at. rewrite take_app_le by exact Hj. reflexivity. Qed.

Lemma flat_map_ext_in {A B : Type} (f g : A -> list B) (l : list A) :
  (forall x, In x l -> f x = g x) -> flat_map f l = flat_map g l.
Proof.
  induction l as [|x l IH]; intros H; [reflexivity|]. cbn.
  rewrite (H x (or_introl eq_refl)), IH; [reflexivity|].
  intros y Hy. apply H. right. exact Hy.
Qed.

(** What the application has sent so far, before the server closes the
    response. *)
Lemma run_app_calls (cfg : middleware_config) dump_cookie (s0 : Session)
    (acts : list app_action) :
  m_started (run_app cfg dump_cookie acts (mw_init s0)) =
    map (forwarded_call cfg dump_cookie s0 acts) (start_points acts) /\
  m_store_log (run_app cfg dump_cookie acts (mw_init s0)) =
    flat_map (saves_at cfg dump_cookie s0 acts) (start_points acts).
Proof.
  induction acts as [|a acts IH] using rev_ind; [split; reflexivity|].
  destruct IH as [IHs IHl].
  unfold start_points. rewrite start_points_from_snoc, map_app, flat_map_app.
  assert (Hm : map (forwarded_call cfg dump_cookie s0 (acts ++ [a])) (start_points_from 0 acts)
               = map (forwarded_call cfg dump_cookie s0 acts) (start_points_from 0 acts)).
  { apply map_ext_in. intros [j [[status hs] exc]] Hin.
    apply start_points_from_bound in Hin. cbn in Hin. cbn.
    rewrite session_at_snoc by lia. reflexivity. }
  assert (Hf : flat_map (saves_at cfg dump_cookie s0 (acts ++ [a])) (start_points_from 0 acts)
               = flat_map (saves_at cfg dump_cookie s0 acts) (start_points_from 0 acts)).
  { apply flat_map_ext_in. intros p Hin.
    apply start_points_from_bound in Hin. cbn in Hin. unfold saves_at.
    rewrite session_at_snoc by lia. reflexivity. }
  rewrite Hm, Hf. unfold start_points in IHs, IHl. rewrite <- IHs, <- IHl.
  rewrite run_app_app. cbn [run_app fold_left].
  set (st := run_app cfg dump_cookie acts (mw_init s0)).
  assert (Hnow : session_at cfg dump_cookie s0 (acts ++ [a]) (0 + length acts) = m_session st).
  { unfold session_at. rewrite Nat.add_0_l, take_app_length. reflexivity. }
  destruct a as [op|b|v|b|status hs exc|c]; cbn [start_point]; rewrite ?app_nil_r;
    try (split; reflexivity).
  cbn [map flat_map forwarded_call]. unfold saves_at. cbn [fst]. rewrite Hnow.
  unfold app_step, injecting_start_response, session_cookie_header.
  destruct (should_save (m_session st)); cbn [m_started m_store_log];
    rewrite ?app_nil_r; split; reflexivity.
Qed.

(** C7 (amended).  In every request, whatever the application does: the
    server receives one call for each [start_response] call of the
    application, in order, with the application's status, [exc_info] and
    headers, and one [Set-Cookie] carrying the session's [sid] at that
    moment appended exactly when [should_save] held at that call; the
    store gets [save(session)] at each such call, and one
    [save_if_modified(session)] when the server closes the response, so
    a single [start_response] call gives one or two store calls and each
    further call (the [exc_info] path) can add a header and a save. *)
Theorem start_response_cookie_per_call (cfg : middleware_config)
    (dump_cookie : middleware_config -> string -> string) (s0 : Session)
    (acts : list app_action) :
  let fin := middleware_run cfg dump_cookie s0 acts in
  m_started fin = map (forwarded_call cfg dump_cookie s0 acts) (start_points acts) /\
  m_store_log fin =
    (flat_map (saves_at cfg dump_cookie s0 acts) (start_points acts) ++
     [CallSaveIfModified (m_session fin)])%list.
Proof.
  cbv zeta. unfold middleware_run, close_response. cbn [m_started m_store_log m_session].
  destruct (run_app_calls cfg dump_cookie s0 acts) as [Hs Hl].
  rewrite Hs, Hl. split; reflexivity.
Qed.

(* ================================================================== *)
(** * Further properties of the module *)

(** ** Keys and file names *)

Fixpoint all_hex (s : string) : bool :=
  match s with
  | EmptyString => true
  | String c rest => is_hex_char c && all_hex rest
  end.

(** The characters [hexdigest()] produces: [0-9a-f]. *)
Definition is_lower_hex_char (c : ascii) : bool :=
  let n := nat_of_ascii c in
  (Nat.leb 48 n && Nat.leb n 57) || (Nat.leb 97 n && Nat.leb n 102).

Fixpoint all_lower_hex (s : string) : bool :=
  match s with
  | EmptyString => true
  | String c rest => is_lower_hex_char c && all_lower_hex rest
  end.

Fixpoint no_slash (s : string) : bool :=
  match s with
  | EmptyString => true
  | String c rest => negb (Ascii.eqb c "/"%char) && no_slash rest
  end.

Fixpoint no_percent (s : string) : bool :=
  match s with
  | EmptyString => true
  | String c rest => negb (Ascii.eqb c "%"%char) && no_percent rest
  end.

Lemma string_append_cons (c : ascii) (s r : string) :
  (String c s ++ r)%string = String c (s ++ r).
Proof. reflexivity. Qed.

Lemma match_hex_n_spec (n : nat) (s r : string) :
  match_hex_n n s = Some r <->
  exists h, String.length h = n /\ all_hex h = true /\ s = (h ++ r)%string.
Proof.
  revert s. induction n as [|n IH]; intros s; split.
  - simpl. intros H. injection H as ->. exists "". auto.
  - intros (h & Hl & _ & ->). destruct h; [reflexivity | discriminate Hl].
  - destruct s as [|c s]; simpl; [discriminate|].
    destruct (is_hex_char c) eqn:Hc; [|discriminate].
    intros H. apply IH in H as (h & Hl & Ha & ->).
    exists (String c h). simpl. rewrite Hc, Ha, Hl. auto.
  - intros (h & Hl & Ha & Hs). destruct h as [|c h]; [discriminate Hl|].
    simpl in Hl, Ha. apply andb_prop in Ha as [Hc Ha]. subst s.
    rewrite string_append_cons. simpl. rewrite Hc. apply IH.
    exists h. auto with lia.
Qed.

(** X1.  [is_valid_key] accepts exactly the 40-character strings of
    hex digits, either case, and those same strings followed by one
    newline (Python's [$] matches before a final newline). *)
Theorem is_valid_key_iff (key : string) :
  is_valid_key key = true <->
  exists h, String.length h = 40 /\ all_hex h = true /\
            (key = h \/ key = (h ++ String "010"%char "")%string).
Proof.
  unfold is_valid_key, sha1_re_match. split.
  - destruct (match_hex_n 40 key) as [rest|] eqn:E; [|discriminate].
    apply match_hex_n_spec in E as (h & Hl & Ha & ->).
    intros Hd. exists h. split; [exact Hl|]. split; [exact Ha|].
    destruct rest as [|c [|c' rest]]; simpl in Hd.
    + left. apply string_append_empty_r.
    + apply Ascii.eqb_eq in Hd. subst c. right. reflexivity.
    + discriminate Hd.
  - intros (h & Hl & Ha & [-> | ->]).
    + assert (H : match_hex_n 40 (h ++ "") = Some "")
        by (apply match_hex_n_spec; eauto).
      rewrite string_append_empty_r in H. rewrite H. reflexivity.
    + assert (H : match_hex_n 40 (h ++ String "010"%char "") = Some (String "010"%char ""))
        by (apply match_hex_n_spec; eauto).
      rewrite H. reflexivity.
Qed.

Lemma hex_digit_is_lower_hex (k : nat) : k < 16 -> is_lower_hex_char (hex_digit k) = true.
Proof.
  intros Hk.
  do 16 (destruct k as [|k]; [reflexivity|]).
  lia.
Qed.

Lemma hexdigest_bytes_lower (bs : list Byte.byte) :
  all_lower_hex (hexdigest_bytes bs) = true.
Proof.
  induction bs as [|b bs IH]; [reflexivity|].
  pose proof (Byte.to_nat_bounded b) as Hb.
  cbn [hexdigest_bytes all_lower_hex].
  rewrite !hex_digit_is_lower_hex, IH; [reflexivity| |].
  - apply Nat.mod_upper_bound. lia.
  - apply Nat.Div0.div_lt_upper_bound. lia.
Qed.

(** X2.  [generate_key(salt)], for every salt, clock reading and random
    bytes, returns 40 lowercase hex digits, a key [is_valid_key]
    accepts. *)
Theorem generate_key_format (sha1 : string -> digest) (salt : option string)
    (env : key_env) :
  String.length (generate_key sha1 salt env) = 40 /\
  all_lower_hex (generate_key sha1 salt env) = true /\
  is_valid_key (generate_key sha1 salt env) = true.
Proof.
  unfold generate_key. destruct (hexdigest_valid (sha1 (salt_str salt ++ env_time env ++ env_urandom env)))
    as [Hv Hl].
  split; [exact Hl|]. split; [apply hexdigest_bytes_lower | exact Hv].
Qed.

Lemma hex_char_not_slash (c : ascii) :
  is_hex_char c = true -> Ascii.eqb c "/"%char = false.
Proof.
  intros H. destruct (Ascii.eqb c "/"%char) eqn:E; [|reflexivity].
  apply Ascii.eqb_eq in E. subst c. discriminate H.
Qed.

Lemma all_hex_no_slash (h : string) : all_hex h = true -> no_slash h = true.
Proof.
  induction h as [|c h IH]; [reflexivity|].
  simpl. intros H. apply andb_prop in H as [Hc Hh].
  rewrite hex_char_not_slash by exact Hc. simpl. apply IH, Hh.
Qed.

Lemma no_slash_app (a b : string) : no_slash (a ++ b) = no_slash a && no_slash b.
Proof.
  induction a as [|c a IH]; [reflexivity|].
  rewrite string_append_cons. simpl. rewrite IH. apply andb_assoc.
Qed.

(** X3.  With the default template ['werkzeug_%s.sess'] the file name
    of a key that passes [is_valid_key] is ['werkzeug_' + key + '.sess'],
    which holds no ['/']: the session file lies directly in the store's
    directory ([path + name], or [path + '/' + name]). *)
Theorem valid_key_file_in_directory (p key : string)
    (Hkey : is_valid_key key = true) :
  let name := ("werkzeug_" ++ key ++ ".sess")%string in
  get_session_filename (default_store p) key = Some (path_join p name) /\
  no_slash name = true /\
  (path_join p name = (p ++ name)%string \/ path_join p name = (p ++ "/" ++ name)%string).
Proof.
  cbv zeta. split; [reflexivity|]. split.
  - apply is_valid_key_iff in Hkey as (h & _ & Ha & [-> | ->]).
    + rewrite !no_slash_app, (all_hex_no_slash h Ha). reflexivity.
    + rewrite !no_slash_app, (all_hex_no_slash h Ha). reflexivity.
  - unfold path_join.
    change (starts_with_slash ("werkzeug_" ++ key ++ ".sess")) with false.
    cbv iota. destruct (String.eqb p "" || ends_with_slash p); [left|right]; reflexivity.
Qed.

Lemma valid_key_file_in_directory_witness :
  is_valid_key sample_key = true /\
  (let name := ("werkzeug_" ++ sample_key ++ ".sess")%string in
   get_session_filename (default_store "/tmp") sample_key = Some (path_join "/tmp" name) /\
   no_slash name = true /\
   (path_join "/tmp" name = ("/tmp" ++ name)%string \/
    path_join "/tmp" name = ("/tmp" ++ "/" ++ name)%string)).
Proof.
  split; [reflexivity|].
  apply (valid_key_file_in_directory "/tmp" sample_key). reflexivity.
Defined.

Lemma format_aux_no_percent (t arg : string) :
  no_percent t = true -> format_aux t arg = Some (t, false).
Proof.
  induction t as [|c t IH]; [reflexivity|].
  simpl no_percent. intros H. apply andb_prop in H as [Hc Ht].
  specialize (IH Ht).
  destruct c as [[] [] [] [] [] [] [] []]; try discriminate Hc; simpl; rewrite IH; reflexivity.
Qed.

(** X4.  A [filename_template] with no [%] directive leaves the id
    unconverted, so [template % sid] raises [TypeError] ("not all
    arguments converted"): [save], [delete] and [get] then all raise
    [TypeError], and [save] and [delete] leave the files as they were. *)
Theorem template_without_directive_raises {Blob : Type}
    (dump : pydict -> Blob) (load : Blob -> option pydict) (sha1 : string -> digest)
    (st : FilesystemSessionStore) (w : @world Blob) (sid0 : string) (env : key_env)
    (Ht : no_percent (filename_template st) = true) :
  fs_save dump st w = (Some TypeError, w) /\
  fs_delete st w = (Some TypeError, w) /\
  fs_get load sha1 st sid0 (w_fs w) env = inr TypeError.
Proof.
  assert (Hf : forall s, get_session_filename st s = None).
  { intros s. unfold get_session_filename, format_str.
    rewrite format_aux_no_percent by exact Ht. reflexivity. }
  unfold fs_save, fs_delete, fs_get. rewrite !Hf. auto.
Qed.

Definition no_directive_store : FilesystemSessionStore :=
  {| fs_path := "/tmp"; filename_template := "werkzeug.sess" |}.

Lemma template_without_directive_raises_witness :
  no_percent (filename_template no_directive_store) = true /\
  fs_save (fun d => d) no_directive_store valid_sid_world = (Some TypeError, valid_sid_world) /\
  fs_delete no_directive_store valid_sid_world = (Some TypeError, valid_sid_world) /\
  fs_get Some const_sha1 no_directive_store sample_key (w_fs valid_sid_world) sample_env
    = inr TypeError.
Proof.
  split; [reflexivity|].
  apply (template_without_directive_raises (fun d => d) Some const_sha1 no_directive_store
           valid_sid_world sample_key sample_env).
  reflexivity.
Defined.

(** ** The tracked dict methods *)

(** X5.  On a key that is absent, [del d[k]] and [d.pop(k)] (no
    default) raise [KeyError], and on an empty dict [d.popitem()] raises
    [KeyError]; the entries stay as they were, and [modified] is set all
    the same. *)
Theorem tracked_key_errors :
  (forall (m : ModificationTrackingDict) (k : string),
     items m !! k = None ->
     call_with_modification (OpDelItem k) m =
       (inr KeyError, {| items := items m; modified := true |}) /\
     call_with_modification (OpPop k None) m =
       (inr KeyError, {| items := items m; modified := true |})) /\
  (forall m : ModificationTrackingDict,
     items m = ∅ ->
     call_with_modification OpPopItem m =
       (inr KeyError, {| items := ∅; modified := true |})).
Proof.
  split.
  - intros m k Hk. unfold call_with_modification, dict_apply. rewrite Hk. auto.
  - intros m Hm. unfold call_with_modification, dict_apply. rewrite Hm.
    rewrite map_to_list_empty. reflexivity.
Qed.

(** X6.  Through the tracked methods, [s[k] = v] makes [k] map to [v]
    and leaves every other key alone; [del s[k]] of a present key
    removes [k] only and returns normally. *)
Theorem tracked_setitem_delitem :
  (forall (m : ModificationTrackingDict) (k : string) (v : pyval) (k' : string),
     fst (call_with_modification (OpSetItem k v) m) = inl RNone /\
     items (snd (call_with_modification (OpSetItem k v) m)) !! k = Some v /\
     (k' <> k -> items (snd (call_with_modification (OpSetItem k v) m)) !! k'
                 = items m !! k')) /\
  (forall (m : ModificationTrackingDict) (k : string) (v : pyval) (k' : string),
     items m !! k = Some v ->
     fst (call_with_modification (OpDelItem k) m) = inl RNone /\
     items (snd (call_with_modification (OpDelItem k) m)) !! k = None /\
     (k' <> k -> items (snd (call_with_modification (OpDelItem k) m)) !! k'
                 = items m !! k')).
Proof.
  split.
  - intros m k v k'. cbn. split; [reflexivity|]. split.
    + apply lookup_insert_eq.
    + intros Hne. apply lookup_insert_ne. congruence.
  - intros m k v k' Hk. unfold call_with_modification, dict_apply. rewrite Hk. cbn.
    split; [reflexivity|]. split.
    + apply lookup_delete_eq.
    + intros Hne. apply lookup_delete_ne. congruence.
Qed.

(** X7.  [popitem()] on a non-empty dict returns one of its items
    [(k, v)] and removes exactly that key. *)
Theorem tracked_popitem (m : ModificationTrackingDict) (Hne : items m <> ∅) :
  exists k v,
    items m !! k = Some v /\
    call_with_modification OpPopItem m =
      (inl (RItem k v), {| items := delete k (items m); modified := true |}).
Proof.
  unfold call_with_modification, dict_apply.
  destruct (map_to_list (items m)) as [|[k v] rest] eqn:E.
  - apply map_to_list_empty_iff in E. contradiction.
  - exists k, v. split; [|reflexivity].
    apply elem_of_map_to_list. rewrite E. left.
Qed.

Lemma tracked_popitem_witness :
  items (mtd_init alice_data) <> ∅ /\
  exists k v,
    items (mtd_init alice_data) !! k = Some v /\
    call_with_modification OpPopItem (mtd_init alice_data) =
      (inl (RItem k v), {| items := delete k (items (mtd_init alice_data)); modified := true |}).
Proof.
  assert (H : items (mtd_init alice_data) <> ∅).
  { intros E. assert (Hl : items (mtd_init alice_data) !! "user" = (∅ : pydict) !! "user")
      by (rewrite E; reflexivity).
    discriminate Hl. }
  split; [exact H|]. apply (tracked_popitem (mtd_init alice_data)). exact H.
Defined.

(** X8.  [setdefault(k, default)] returns the value that [k] maps to
    afterwards; an existing value is returned and never overwritten,
    and only a missing key gets [default]. *)
Theorem tracked_setdefault (m : ModificationTrackingDict) (k : string) (dv : pyval) :
  exists v,
    fst (call_with_modification (OpSetDefault k dv) m) = inl (RVal v) /\
    items (snd (call_with_modification (OpSetDefault k dv) m)) !! k = Some v /\
    (forall v0, items m !! k = Some v0 ->
       v = v0 /\ items (snd (call_with_modification (OpSetDefault k dv) m)) = items m) /\
    (items m !! k = None -> v = dv).
Proof.
  unfold call_with_modification, dict_apply.
  destruct (items m !! k) as [v0|] eqn:Hk.
  - exists v0. cbn. split; [reflexivity|]. split; [exact Hk|]. split.
    + intros v1 H1. split; congruence.
    + intros H1. congruence.
  - exists dv. cbn. split; [reflexivity|]. split; [apply lookup_insert_eq|]. split.
    + intros v1 H1. discriminate H1.
    + intros _. reflexivity.
Qed.

(** The value the last pair for [k] in [kvs] carries. *)
Fixpoint last_assoc (k : string) (kvs : list (string * pyval)) : option pyval :=
  match kvs with
  | [] => None
  | (k', v) :: rest =>
      match last_assoc k rest with
      | Some x => Some x
      | None => if String.eqb k k' then Some v else None
      end
  end.

(** X9.  After [update(kvs)], a key maps to the value of its last pair
    in [kvs], and a key without a pair keeps its old value. *)
Theorem tracked_update_lookup (m : ModificationTrackingDict)
    (kvs : list (string * pyval)) (k : string) :
  items (snd (call_with_modification (OpUpdate kvs) m)) !! k =
    match last_assoc k kvs with
    | Some v => Some v
    | None => items m !! k
    end.
Proof.
  cbn. generalize (items m) as d. clear m.
  induction kvs as [|[k' v] rest IH]; intros d; [reflexivity|].
  cbn [fold_left last_assoc fst snd]. rewrite IH.
  destruct (last_assoc k rest); [reflexivity|].
  destruct (String.eqb k k') eqn:E.
  - apply String.eqb_eq in E. subst k'. apply lookup_insert_eq.
  - apply String.eqb_neq in E. apply lookup_insert_ne. congruence.
Qed.

(** A sequence of tracked method calls. *)
Definition mtd_run (ops : list dict_op) (m : ModificationTrackingDict)
  : ModificationTrackingDict :=
  fold_left (fun acc op => snd (call_with_modification op acc)) ops m.

(** X10.  Over any sequence of tracked method calls, [modified] ends
    up [True] as soon as the sequence has one call, and otherwise keeps
    its value: no tracked method ever clears it. *)
Theorem mtd_run_modified (ops : list dict_op) (m : ModificationTrackingDict) :
  modified (mtd_run ops m) = match ops with [] => modified m | _ :: _ => true end.
Proof.
  unfold mtd_run. revert m.
  induction ops as [|op ops IH]; intros m; [reflexivity|].
  cbn [fold_left]. rewrite IH.
  unfold call_with_modification. destruct (dict_apply op (items m)).
  destruct ops; reflexivity.
Qed.

(** ** The filesystem store: how the operations compose *)

(** X11.  Saving twice is saving once: a second [save] of the same
    session overwrites the file with the same contents and raises what
    the first one raised. *)
Theorem fs_save_idempotent {Blob : Type} (dump : pydict -> Blob)
    (st : FilesystemSessionStore) (w : @world Blob) :
  fs_save dump st (snd (fs_save dump st w)) = fs_save dump st w.
Proof.
  unfold fs_save at 2.
  destruct (get_session_filename st (sid (w_session w))) as [fn|] eqn:Hfn;
    [|cbn [snd]; unfold fs_save; rewrite Hfn; reflexivity].
  destruct (decide (fn ∈ denied (w_fs w))) as [Hd|Hd];
    cbn [snd]; unfold fs_save; cbn [w_session set_fs w_fs denied files]; rewrite Hfn.
  - destruct (decide (fn ∈ denied (w_fs w))); [reflexivity | contradiction].
  - destruct (decide (fn ∈ denied (w_fs w))); [contradiction|].
    unfold set_fs, created_unreadable. cbn.
    rewrite insert_insert_eq, lookup_insert_eq. reflexivity.
Qed.

(** X13.  Deleting twice is deleting once: the second [delete] finds
    the file gone (or still refused) and changes nothing more. *)
Theorem fs_delete_idempotent {Blob : Type}
    (st : FilesystemSessionStore) (w : @world Blob) :
  fs_delete st (snd (fs_delete st w)) = fs_delete st w.
Proof.
  unfold fs_delete at 2.
  destruct (get_session_filename st (sid (w_session w))) as [fn|] eqn:Hfn;
    [|cbn [snd]; unfold fs_delete; rewrite Hfn; reflexivity].
  destruct (unlink fn (w_fs w)) as [fs'|e] eqn:Hu; cbn [snd].
  - unfold fs_delete. cbn [w_session set_fs]. rewrite Hfn. cbn [w_fs].
    unfold unlink in Hu |- *.
    destruct (files (w_fs w) !! fn); [|discriminate Hu].
    destruct (decide (fn ∈ denied (w_fs w))); [discriminate Hu|].
    injection Hu as <-. cbn. rewrite lookup_delete_eq. reflexivity.
  - destruct e; cbn [snd]; unfold fs_delete; rewrite Hfn, Hu; reflexivity.
Qed.

(** X14.  After a [delete] the OS allowed, [get] of the same id finds
    no file and returns a new session, whether or not a file was there. *)
Theorem delete_then_get_is_new {Blob : Type}
    (load : Blob -> option pydict) (sha1 : string -> digest)
    (st : FilesystemSessionStore) (w : @world Blob) (fn : string) (env : key_env)
    (Hfn : get_session_filename st (sid (w_session w)) = Some fn)
    (Hperm : fn ∉ denied (w_fs w)) :
  fs_get load sha1 st (sid (w_session w)) (w_fs (snd (fs_delete st w))) env
  = inl (store_new sha1 env).
Proof.
  assert (Hgone : files (w_fs (snd (fs_delete st w))) !! fn = None).
  { unfold fs_delete, unlink. rewrite Hfn.
    destruct (files (w_fs w) !! fn) eqn:Hf; [|exact Hf].
    destruct (decide (fn ∈ denied (w_fs w))); [contradiction|].
    cbn. apply lookup_delete_eq. }
  unfold fs_get. rewrite Hfn.
  destruct (is_valid_key (sid (w_session w))); [|reflexivity].
  cbn [negb]. rewrite Hgone. reflexivity.
Qed.

Definition saved_world : @world pydict :=
  {| w_fs := {| files := {[sample_fn := alice_data]}; denied := ∅; unreadable := ∅;
              umask_denies_read := false |};
     w_session := Session_init alice_data sample_key false |}.

Lemma delete_then_get_is_new_witness :
  get_session_filename tmp_store (sid (w_session saved_world)) = Some sample_fn /\
  (sample_fn ∉ denied (w_fs saved_world)) /\
  fs_get Some const_sha1 tmp_store sample_key (w_fs (snd (fs_delete tmp_store saved_world)))
    sample_env = inl (store_new const_sha1 sample_env).
Proof.
  split; [reflexivity|]. split; [set_solver|].
  apply (delete_then_get_is_new Some const_sha1 tmp_store saved_world sample_fn sample_env).
  - reflexivity.
  - set_solver.
Defined.

(** X15.  A session loaded by [get] from its file ([new = False]) has
    [should_save = False]: [save_if_modified] on it, before any change,
    writes nothing. *)
Theorem loaded_session_not_saved {Blob : Type}
    (dump : pydict -> Blob) (load : Blob -> option pydict) (sha1 : string -> digest)
    (st : FilesystemSessionStore) (sid0 : string) (fs : @filesystem Blob)
    (env : key_env) (s : Session)
    (Hget : fs_get load sha1 st sid0 fs env = inl s)
    (Hold : new s = false) :
  should_save s = false /\
  fs_save_if_modified dump st {| w_fs := fs; w_session := s |}
  = (None, {| w_fs := fs; w_session := s |}).
Proof.
  assert (Hs : should_save s = false).
  { unfold fs_get in Hget.
    destruct (get_session_filename st sid0); [|discriminate Hget].
    destruct (negb (is_valid_key sid0)).
    - injection Hget as <-. discriminate Hold.
    - destruct (files fs !! s0) as [blob|].
      + destruct (decide _); [discriminate Hget|].
        destruct (load blob) as [data|]; [|discriminate Hget].
        injection Hget as <-. reflexivity.
      + injection Hget as <-. discriminate Hold. }
  split; [exact Hs|]. unfold fs_save_if_modified. cbn [w_session]. rewrite Hs. reflexivity.
Qed.

Lemma loaded_session_not_saved_witness :
  fs_get Some const_sha1 tmp_store sample_key (w_fs saved_world) sample_env
    = inl (Session_init alice_data sample_key false) /\
  new (Session_init alice_data sample_key false) = false /\
  (should_save (Session_init alice_data sample_key false) = false /\
   fs_save_if_modified (fun d => d) tmp_store
     {| w_fs := w_fs saved_world; w_session := Session_init alice_data sample_key false |}
   = (None, {| w_fs := w_fs saved_world;
               w_session := Session_init alice_data sample_key false |})).
Proof.
  split; [reflexivity|]. split; [reflexivity|].
  apply (loaded_session_not_saved (fun d => d) Some const_sha1 tmp_store sample_key
           (w_fs saved_world) sample_env).
  - reflexivity.
  - reflexivity.
Defined.

(** X16.  A file that exists for a valid id and can be opened for
    reading, but does not unpickle, makes [get] raise the unpickling
    error; it is not replaced by a new session. *)
Theorem get_corrupt_file_raises {Blob : Type}
    (load : Blob -> option pydict) (sha1 : string -> digest)
    (st : FilesystemSessionStore) (sid0 : string) (fs : @filesystem Blob)
    (env : key_env) (fn : string) (blob : Blob)
    (Hfn : get_session_filename st sid0 = Some fn)
    (Hvalid : is_valid_key sid0 = true)
    (Hfile : files fs !! fn = Some blob)
    (Hread : fn ∉ unreadable fs)
    (Hbad : load blob = None) :
  fs_get load sha1 st sid0 fs env = inr UnpicklingError.
Proof.
  unfold fs_get. rewrite Hfn, Hvalid. cbn [negb]. rewrite Hfile.
  destruct (decide _); [contradiction|]. rewrite Hbad. reflexivity.
Qed.

(** A codec that cannot read an empty dict's file. *)
Definition load_nonempty (d : pydict) : option pydict :=
  if decide (d = ∅) then None else Some d.

Definition corrupt_fs : @filesystem pydict :=
  {| files := {[sample_fn := ∅]}; denied := ∅; unreadable := ∅;
     umask_denies_read := false |}.

Lemma get_corrupt_file_raises_witness :
  get_session_filename tmp_store sample_key = Some sample_fn /\
  is_valid_key sample_key = true /\
  files corrupt_fs !! sample_fn = Some ∅ /\
  (sample_fn ∉ unreadable corrupt_fs) /\
  load_nonempty ∅ = None /\
  fs_get load_nonempty const_sha1 tmp_store sample_key corrupt_fs sample_env
    = inr UnpicklingError.
Proof.
  split; [reflexivity|]. split; [reflexivity|]. split; [reflexivity|].
  split; [cbn; set_solver|]. split; [reflexivity|].
  apply (get_corrupt_file_raises load_nonempty const_sha1 tmp_store sample_key
           corrupt_fs sample_env sample_fn ∅).
  - reflexivity.
  - reflexivity.
  - reflexivity.
  - cbn. set_solver.
  - reflexivity.
Defined.

(** ** The middleware: the close-time save *)

Definition is_mutate (a : app_action) : bool :=
  match a with AMutate _ => true | _ => false end.

(** Setting [session.modified = False] by hand. *)
Definition is_reset (a : app_action) : bool :=
  match a with ASetModified false => true | _ => false end.

(** The actions after which [modified] is [True]: a tracked dict method,
    or setting [session.modified = True] by hand. *)
Definition sets_modified (a : app_action) : bool :=
  match a with AMutate _ | ASetModified true => true | _ => false end.

Lemma run_app_modified (cfg : middleware_config) dump_cookie
    (acts : list app_action) (st : mw_state) :
  forallb (fun a => negb (is_reset a)) acts = true ->
  modified (s_dict (m_session (run_app cfg dump_cookie acts st))) =
    modified (s_dict (m_session st)) || existsb sets_modified acts.
Proof.
  revert st. induction acts as [|a acts IH]; intros st H.
  { cbn. symmetry. apply orb_false_r. }
  cbn in H. apply andb_prop in H as [Ha Hrest].
  cbn [run_app fold_left]. fold (run_app cfg dump_cookie acts (app_step cfg dump_cookie st a)).
  rewrite (IH _ Hrest).
  destruct a as [op|[]|v|b|status hs exc|c]; cbn [existsb sets_modified orb].
  - unfold app_step, set_session, session_call, call_with_modification. cbn.
    destruct (dict_apply op (items (s_dict (m_session st)))). cbn.
    rewrite orb_true_r. reflexivity.
  - cbn. rewrite orb_true_r. reflexivity.
  - discriminate Ha.
  - reflexivity.
  - reflexivity.
  - unfold app_step, injecting_start_response.
    destruct (should_save (m_session st)); reflexivity.
  - reflexivity.
Qed.

Lemma existsb_mutate_sets_modified (acts : list app_action) :
  existsb is_mutate acts = true -> existsb sets_modified acts = true.
Proof.
  induction acts as [|a acts IH]; cbn; [discriminate|].
  intros H. apply orb_prop in H as [H|H].
  - destruct a; try discriminate H. reflexivity.
  - rewrite (IH H). apply orb_true_r.
Qed.

(** X18.  A mutation of the session through its dict methods at any
    point of the request, also while the body is being streamed after
    the headers went out, is seen by the close-time
    [save_if_modified(session)]: the last store call gets a session with
    [should_save = True], as long as the application never sets
    [session.modified = False] by hand (it may set it to [True], and
    may assign [sid] or [new]). *)
Theorem streaming_mutation_saved_at_close (cfg : middleware_config)
    (dump_cookie : middleware_config -> string -> string) (s0 : Session)
    (acts : list app_action)
    (Hnoreset : forallb (fun a => negb (is_reset a)) acts = true)
    (Hmut : existsb is_mutate acts = true) :
  exists calls s,
    m_store_log (middleware_run cfg dump_cookie s0 acts) =
      (calls ++ [CallSaveIfModified s])%list /\
    should_save s = true.
Proof.
  unfold middleware_run, close_response. cbn [m_store_log].
  eexists; eexists. split; [reflexivity|].
  unfold should_save.
  rewrite (run_app_modified cfg dump_cookie acts (mw_init s0) Hnoreset).
  rewrite (existsb_mutate_sets_modified acts Hmut).
  rewrite orb_true_r. reflexivity.
Qed.

Lemma streaming_mutation_saved_at_close_witness :
  let acts := [AStartResponse "200 OK" [] false; AYield "part 1";
               ASetModified true; AMutate (OpSetItem "seen" (VBool true));
               ASetSid sample_key; AYield "part 2"] in
  forallb (fun a => negb (is_reset a)) acts = true /\
  existsb is_mutate acts = true /\
  exists calls s,
    m_store_log (middleware_run default_config plain_cookie
                   (Session_init alice_data sample_key false) acts) =
      (calls ++ [CallSaveIfModified s])%list /\
    should_save s = true.
Proof.
  cbv zeta. split; [reflexivity|]. split; [reflexivity|].
  apply (streaming_mutation_saved_at_close default_config plain_cookie
           (Session_init alice_data sample_key false)); reflexivity.
Defined.
